(** * CPF validation of workout_api, checked against its specification

    A shallow embedding of [limpar_cpf] and [validar_cpf]
    (src/workout_api/atleta/controller.py, lines 227-255) and the proofs of
    the properties the specification states about them.

    Python values are modelled as follows.
    - A [str] is the list of its code points ([N]); the theorems hold for
      every such list, so in particular for every Python string.
    - An [int] is a [Z]; [%] with a positive right operand is [Z.modulo].
    - A call that may raise returns a [result]: [Ret v], or [Raise e] for
      an exception [e] that leaves the function. *)

From Stdlib Require Import ZArith NArith Lia List Ascii String DecimalString.
From stdpp Require Import base list.

Open Scope Z_scope.

(** ** Python values and primitives *)

(** A character: a Unicode code point. *)
Abbreviation char := N (only parsing).
(** A Python [str]. *)
Abbreviation pystr := (list N) (only parsing).

Inductive exn : Type :=
| IndexError
| ValueError.

Inductive result (A : Type) : Type :=
| Ret (a : A)
| Raise (e : exn).

Arguments Ret {A} a.
Arguments Raise {A} e.

Definition bind {A B : Type} (m : result A) (k : A -> result B) : result B :=
  match m with
  | Ret a => k a
  | Raise e => Raise e
  end.

Notation "x <- m ;; k" := (bind m (fun x => k))
  (at level 100, m at next level, right associativity).

(** Proof steps used more than once: a list of length 11 as its 11
    elements, and a decidable fact about a concrete input by evaluation. *)
Ltac eleven l H :=
  do 11 (destruct l as [|? l]; [discriminate H|]);
  destruct l; [clear H | discriminate H].

Ltac by_decide :=
  match goal with
  | |- ?P => apply (bool_decide_unpack P); vm_compute; exact I
  end.

(** A string literal of this file (ASCII only) as a Python [str]. *)
Definition py (s : string) : pystr :=
  map N_of_ascii (list_ascii_of_string s).

(** [len(s)]. *)
Definition len (s : pystr) : Z := Z.of_nat (length s).

(** [s[i]]: a negative index counts from the end, an index out of range
    raises [IndexError]. *)
Definition getitem (s : pystr) (i : Z) : result char :=
  let j := if i <? 0 then i + len s else i in
  if j <? 0 then Raise IndexError
  else match s !! Z.to_nat j with
       | Some c => Ret c
       | None => Raise IndexError
       end.

(** [s[i:]]: a slice never raises; a negative start counts from the end
    and is clipped at the beginning, a start past the end gives the empty
    string. *)
Definition slice_from (s : pystr) (i : Z) : pystr :=
  let j := if i <? 0 then Z.max 0 (i + len s) else Z.min i (len s) in
  drop (Z.to_nat j) s.

(** [s * n]: [n] copies of [s], none when [n <= 0]. *)
Definition str_mul (s : pystr) (n : Z) : pystr :=
  mjoin (replicate (Z.to_nat n) s).

(** [range(n)]. *)
Definition range (n : nat) : list Z := map Z.of_nat (seq 0 n).

(** [sum(f(i) for i in l)]: the accumulator starts at 0 and the generator
    is consumed from left to right; an exception raised by an element
    leaves the sum. *)
Fixpoint sum_from (acc : Z) (f : Z -> result Z) (l : list Z) : result Z :=
  match l with
  | [] => Ret acc
  | i :: l' => x <- f i ;; sum_from (acc + x) f l'
  end.

Definition sum_gen (f : Z -> result Z) (l : list Z) : result Z :=
  sum_from 0 f l.

(** [f"{n}"] for an [int]: its decimal digits, after a minus sign when it
    is negative. *)
Definition format_int (n : Z) : pystr :=
  py (NilZero.string_of_int (Z.to_int n)).

(** The character class [0-9] of the pattern. *)
Definition is_0_9 (c : char) : bool := ((48 <=? c) && (c <=? 57))%N.

(** [re.sub(p, repl, s)] for a pattern [p] that is a single character
    class [cls]: the string is scanned from left to right, every character
    of the class is replaced by [repl] and every other character is
    copied. (Such a pattern matches exactly one character, so no match is
    empty and none overlaps another.) *)
Fixpoint re_sub_class (cls : char -> bool) (repl s : pystr) : pystr :=
  match s with
  | [] => []
  | c :: s' => (if cls c then repl else [c]) ++ re_sub_class cls repl s'
  end.

(** ** The functions of the controller *)

(** [limpar_cpf]: [re.sub(r"[^0-9]", "", cpf)]. The class is negated: it
    holds every character but '0'..'9' (the line feed too). *)
Definition limpar_cpf (cpf : pystr) : pystr :=
  re_sub_class (fun c => negb (is_0_9 c)) [] cpf.

(** ** Handlers and the session *)

(** [status.HTTP_400_BAD_REQUEST] and [status.HTTP_404_NOT_FOUND]. *)
Definition HTTP_400_BAD_REQUEST : Z := 400.
Definition HTTP_404_NOT_FOUND : Z := 404.

(** What the session gives for [db_session.execute(...)] followed by
    [.scalars().first()]: the first row or [None], or an exception of the
    session, which the handler does not catch. *)
Inductive answer (A : Type) : Type :=
| First (v : option A)
| SessionError.

Arguments First {A} v.
Arguments SessionError {A}.

(** How a handler ends: it returns a value, it raises [HTTPException], an
    exception of the session passes through it, or another exception
    leaves it. *)
Inductive outcome (A : Type) : Type :=
| Returned (a : A)
| HTTPException (status_code : Z) (detail : pystr)
| SessionFailure
| Uncaught (e : exn).

Arguments Returned {A} a.
Arguments HTTPException {A} status_code detail.
Arguments SessionFailure {A}.
Arguments Uncaught {A} e.

(** The status code of an outcome that is an [HTTPException], and the
    value of one that is a return. *)
Definition status_of {A : Type} (o : outcome A) : option Z :=
  match o with
  | HTTPException status_code _ => Some status_code
  | _ => None
  end.

Definition returned_of {A : Type} (o : outcome A) : option A :=
  match o with
  | Returned a => Some a
  | _ => None
  end.

Section Validator.

(** Python's [int] reads any Unicode decimal digit. [unicode_digit c] is
    the value it gives to a character [c] outside '0'..'9' ([None] when
    [c] is no decimal digit, and [int] raises [ValueError]). The table is
    left open: every theorem below holds whatever it is. *)
Variable unicode_digit : char -> option Z.

(** [int(s)] for a string [s] of the single character [c]. *)
Definition int_char (c : char) : result Z :=
  if is_0_9 c then Ret (Z.of_N c - 48)
  else match unicode_digit c with
       | Some v => Ret v
       | None => Raise ValueError
       end.

(** Lines 244-252 of [validar_cpf]: the locals [digito1] and [digito2]. *)
Definition validar_cpf_digitos (cpf : pystr) : result (Z * Z) :=
  soma <- sum_gen (fun i => c <- getitem cpf i ;;
                            d <- int_char c ;;
                            Ret (d * (10 - i))) (range 9) ;;
  let resto := soma mod 11 in
  let digito1 := if resto <? 2 then 0 else 11 - resto in
  soma <- sum_gen (fun i => c <- getitem cpf i ;;
                            d <- int_char c ;;
                            Ret (d * (11 - i))) (range 10) ;;
  let resto := soma mod 11 in
  let digito2 := if resto <? 2 then 0 else 11 - resto in
  Ret (digito1, digito2).

(** [validar_cpf]. *)
Definition validar_cpf (cpf : pystr) : result bool :=
  let cpf := limpar_cpf cpf in
  if negb (len cpf =? 11) then Ret false
  else
    c0 <- getitem cpf 0 ;;
    if bool_decide (cpf = str_mul [c0] 11) then Ret false
    else
      digitos <- validar_cpf_digitos cpf ;;
      let '(digito1, digito2) := digitos in
      Ret (bool_decide
             (slice_from cpf (-2) = format_int digito1 ++ format_int digito2)).

(** ** The lookup of an athlete by CPF *)

Section Lookup.

(** The instances of [AtletaModel], with [bool(atleta)] for an instance. *)
Variable AtletaModel : Type.
Variable truthy : AtletaModel -> bool.

(** [first_by_cpf key]: the answer of the session to
    [select(AtletaModel).filter_by(cpf=key)]. *)
Variable first_by_cpf : pystr -> answer AtletaModel.

(** [not atleta], for [None] or an instance. *)
Definition falsy (atleta : option AtletaModel) : bool :=
  match atleta with
  | None => true
  | Some a => negb (truthy a)
  end.

(** [get], the handler of the route "/cpf/{cpf}" (lines 148-173; the
    third function of that name in the module). The result is the list
    of the keys the handler queried the session with, in order, and how
    the handler ends. The two messages hold one character past ASCII
    each, written as its code point. *)
Definition get (cpf : pystr) : list pystr * outcome (option AtletaModel) :=
  let cpf_limpo := limpar_cpf cpf in
  match validar_cpf cpf_limpo with
  | Raise e => ([], Uncaught e)
  | Ret valido =>
      if negb valido then
        ([], HTTPException HTTP_400_BAD_REQUEST
               (py "CPF inv" ++ [225%N] ++ py "lido: " ++ cpf))
      else
        match first_by_cpf cpf_limpo with
        | SessionError => ([cpf_limpo], SessionFailure)
        | First atleta =>
            if falsy atleta then
              ([cpf_limpo],
               HTTPException HTTP_404_NOT_FOUND
                 (py "Atleta n" ++ [227%N] ++ py "o encontrado com CPF: "
                  ++ cpf))
            else ([cpf_limpo], Returned atleta)
        end
  end.

End Lookup.

Arguments falsy {AtletaModel} truthy atleta.
Arguments get {AtletaModel} truthy first_by_cpf cpf.

(** ** The vocabulary of the specification *)

(** A decimal digit character, '0'..'9'. *)
Definition decimal_digit (c : char) : Prop := (48 <= c <= 57)%N.

#[global] Instance decimal_digit_dec (c : char) : Decision (decimal_digit c).
Proof. unfold decimal_digit. apply _. Defined.

(** A normalized identifier: decimal digits only. *)
Definition normalized (cpf : pystr) : Prop := Forall decimal_digit cpf.

(** The value of a digit character, and the digits d_0, d_1, ... of an
    identifier. *)
Definition digit_value (c : char) : Z := Z.of_N c - 48.
Definition digits (cpf : pystr) : list Z := map digit_value cpf.

(** A digit value, 0..9. *)
Definition digit_range (x : Z) : Prop := 0 <= x <= 9.

(** [sum(d_i * (w - i))] for [i = 0 .. n-1]. *)
Definition weighted_sum (d : list Z) (w : Z) (n : nat) : Z :=
  foldr Z.add 0 (map (fun i => nth i d 0 * (w - Z.of_nat i)) (seq 0 n)).

(** The rule of a verification digit: 0 when the sum mod 11 is less than
    2, and 11 minus that remainder otherwise. *)
Definition check_digit (soma : Z) : Z :=
  let remainder := soma mod 11 in
  if remainder <? 2 then 0 else 11 - remainder.

(** The verification digits recomputed from the digits of the input
    itself: [check1] from the first 9, [check2] from the first 10. *)
Definition check1 (d : list Z) : Z := check_digit (weighted_sum d 10 9).
Definition check2 (d : list Z) : Z := check_digit (weighted_sum d 11 10).

(** Both verification digits match. *)
Definition checksum_ok (d : list Z) : bool :=
  bool_decide (nth 9 d 0 = check1 d) && bool_decide (nth 10 d 0 = check2 d).

(** All the characters of a string of 11 are the same one. *)
Definition all_identical (cpf : pystr) : Prop :=
  cpf = replicate 11 (nth 0 cpf 0%N).

(** The decision of [validar_cpf] on a normalized identifier: 11 digits,
    not all identical, both verification digits match. *)
Definition valid_digits (cpf : pystr) : bool :=
  bool_decide (length cpf = 11%nat)
  && negb (bool_decide (all_identical cpf))
  && checksum_ok (digits cpf).

(** The algorithm in the words of the specification (4.2, steps 1 to 5),
    on a normalized identifier. Step 4 sums over the original 9 digits
    with the [check1] of step 3 appended as digit 9, where the code sums
    over the first 10 digits of the input. *)
Definition spec_is_valid (cpf : pystr) : bool :=
  let d := digits cpf in
  if negb (bool_decide (length d = 11%nat)) then false
  else if bool_decide (d = replicate 11 (nth 0 d 0)) then false
  else
    let c1 := check_digit (weighted_sum d 10 9) in
    let c2 := check_digit (weighted_sum (take 9 d ++ [c1]) 11 10) in
    bool_decide (nth 9 d 0 = c1) && bool_decide (nth 10 d 0 = c2).

(** A single-digit change: the character at position [p] becomes [v]. *)
Definition mutate (cpf : pystr) (p : nat) (v : char) : pystr := <[p:=v]> cpf.

Definition digit_chars : pystr := py "0123456789".

Definition rejected (r : result bool) : bool :=
  match r with
  | Ret false => true
  | _ => false
  end.

(** A position is sensitive when every change of its digit to a different
    digit is rejected. *)
Definition sensitive (cpf : pystr) (p : nat) : bool :=
  forallb (fun v => bool_decide (cpf !! p = Some v)
                    || rejected (validar_cpf (mutate cpf p v)))
          digit_chars.

Definition sensitive_positions (cpf : pystr) : list nat :=
  List.filter (sensitive cpf) (seq 0 11).

(** The positions at which the checksum catches every change. *)
Definition checked_positions : list nat := [1; 2; 3; 4; 6; 7; 8; 9; 10]%nat.

(** An ASCII letter, or a character past ASCII (where every other letter
    lies). *)
Definition letter (c : char) : Prop :=
  (65 <= c <= 90 \/ 97 <= c <= 122 \/ 128 <= c)%N.

(** Two adjacent characters exchanged: those at positions [i] and
    [i + 1]. *)
Definition transpose (cpf : pystr) (i : nat) : pystr :=
  match cpf !! i, cpf !! S i with
  | Some a, Some b => <[i:=b]> (<[S i:=a]> cpf)
  | _, _ => cpf
  end.

(** ** Concrete inputs *)

(** A table of [int] with no digit outside '0'..'9'. *)
Definition no_unicode_digit : char -> option Z := fun _ => None.

(** A valid identifier that stays valid when its digit 0 becomes 2 and
    when its digit 5 becomes 0. *)
Definition cpf_colisao : pystr := py "10000928100".

(** A session with one athlete, row 1, stored under the CPF 52998224725,
    and rows that are all truthy. *)
Definition one_athlete (key : pystr) : answer nat :=
  if bool_decide (key = py "52998224725") then First (Some 1%nat)
  else First None.

Definition always_truthy (_ : nat) : bool := true.

(** ** The normalizer *)

Lemma limpar_cpf_cons (c : char) (s : pystr) :
  limpar_cpf (c :: s) = if is_0_9 c then c :: limpar_cpf s else limpar_cpf s.
Proof. unfold limpar_cpf. simpl. destruct (is_0_9 c); reflexivity. Qed.

Lemma is_0_9_spec (c : char) : is_0_9 c = true <-> decimal_digit c.
Proof. unfold is_0_9, decimal_digit. rewrite andb_true_iff, !N.leb_le. tauto. Qed.

Lemma is_0_9_false (c : char) : is_0_9 c = false <-> ~ decimal_digit c.
Proof. rewrite <- is_0_9_spec. destruct (is_0_9 c); intuition congruence. Qed.

Lemma limpar_cpf_filter (s : pystr) : limpar_cpf s = filter decimal_digit s.
Proof.
  induction s as [|c s IH]; [reflexivity|].
  rewrite limpar_cpf_cons, IH.
  destruct (is_0_9 c) eqn:E.
  - apply is_0_9_spec in E. now rewrite filter_cons_True.
  - apply is_0_9_false in E. now rewrite filter_cons_False.
Qed.

Lemma limpar_cpf_normalized (s : pystr) : normalized (limpar_cpf s).
Proof.
  unfold normalized. rewrite limpar_cpf_filter.
  apply Forall_forall. intros c Hc. now apply list_elem_of_filter in Hc.
Qed.

Lemma limpar_cpf_fixed (cpf : pystr) : normalized cpf -> limpar_cpf cpf = cpf.
Proof.
  intros H. induction H as [|c cpf Hc _ IH]; [reflexivity|].
  rewrite limpar_cpf_cons, IH. apply is_0_9_spec in Hc. now rewrite Hc.
Qed.

(** ** The primitives on normalized identifiers *)

Lemma getitem_lookup (s : pystr) (i : nat) (c : char) :
  s !! i = Some c -> getitem s (Z.of_nat i) = Ret c.
Proof.
  intros H. unfold getitem.
  assert (E : (Z.of_nat i <? 0) = false) by (apply Z.ltb_ge; lia).
  cbv zeta. rewrite !E. now rewrite Nat2Z.id, H.
Qed.

Lemma int_char_digit (c : char) :
  decimal_digit c -> int_char c = Ret (digit_value c).
Proof. intros H. apply is_0_9_spec in H. unfold int_char. now rewrite H. Qed.

Lemma digit_lookup (cpf : pystr) (i : nat) (c : char) :
  cpf !! i = Some c -> nth i (digits cpf) 0 = digit_value c.
Proof.
  intros H. apply nth_lookup_Some. unfold digits.
  now rewrite list_lookup_fmap, H.
Qed.

Lemma digit_value_range (c : char) :
  decimal_digit c -> 0 <= digit_value c <= 9.
Proof. unfold decimal_digit, digit_value. lia. Qed.

(** The generator of either sum raises nowhere on a normalized identifier
    that is long enough, and the sum is the weighted sum of its digits. *)
Lemma sum_from_digits (cpf : pystr) (w : Z) :
  normalized cpf ->
  forall (n k : nat) (acc : Z),
    (k + n <= length cpf)%nat ->
    sum_from acc (fun i => c <- getitem cpf i ;;
                           d <- int_char c ;;
                           Ret (d * (w - i)))
             (map Z.of_nat (seq k n))
    = Ret (acc + foldr Z.add 0
                   (map (fun i => nth i (digits cpf) 0 * (w - Z.of_nat i))
                        (seq k n))).
Proof.
  intros Hn n. induction n as [|n IH]; intros k acc Hk; simpl.
  - f_equal. lia.
  - destruct (lookup_lt_is_Some_2 cpf k) as [c Hc]; [lia|].
    assert (Hd : decimal_digit c).
    { eapply Forall_lookup_1; eassumption. }
    rewrite (getitem_lookup _ _ _ Hc). simpl.
    rewrite (int_char_digit _ Hd). simpl.
    rewrite IH by lia. rewrite (digit_lookup _ _ _ Hc). f_equal. lia.
Qed.

Lemma sum_gen_digits (cpf : pystr) (w : Z) (n : nat) :
  normalized cpf -> (n <= length cpf)%nat ->
  sum_gen (fun i => c <- getitem cpf i ;;
                    d <- int_char c ;;
                    Ret (d * (w - i))) (range n)
  = Ret (weighted_sum (digits cpf) w n).
Proof.
  intros Hn Hl. unfold sum_gen, range, weighted_sum.
  now rewrite sum_from_digits by (assumption || lia).
Qed.

Lemma validar_cpf_digitos_checks (cpf : pystr) :
  normalized cpf -> (10 <= length cpf)%nat ->
  validar_cpf_digitos cpf = Ret (check1 (digits cpf), check2 (digits cpf)).
Proof.
  intros Hn Hl. unfold validar_cpf_digitos.
  rewrite !sum_gen_digits by (assumption || lia). reflexivity.
Qed.

Lemma check_digit_range (soma : Z) : 0 <= check_digit soma <= 9.
Proof.
  unfold check_digit.
  pose proof (Z.mod_pos_bound soma 11 ltac:(lia)).
  destruct (Z.ltb_spec (soma mod 11) 2); lia.
Qed.

(** A value 0..9 is printed as its one digit character. *)
Lemma format_int_digit (d : Z) :
  0 <= d <= 9 -> format_int d = [Z.to_N (48 + d)].
Proof.
  intros H.
  assert (Hd : d = 0 \/ d = 1 \/ d = 2 \/ d = 3 \/ d = 4 \/
               d = 5 \/ d = 6 \/ d = 7 \/ d = 8 \/ d = 9) by lia.
  repeat (destruct Hd as [-> | Hd]; [reflexivity|]). now subst.
Qed.

Lemma digit_char_eq (c : char) (d : Z) :
  decimal_digit c -> 0 <= d <= 9 -> (c = Z.to_N (48 + d) <-> digit_value c = d).
Proof. unfold decimal_digit, digit_value. lia. Qed.

(** ** What [validar_cpf] decides *)

Lemma slice_last_two (cpf : pystr) :
  length cpf = 11%nat ->
  slice_from cpf (-2) = [nth 9 cpf 0%N; nth 10 cpf 0%N].
Proof. intros H. eleven cpf H. reflexivity. Qed.

Lemma getitem_first (cpf : pystr) :
  length cpf = 11%nat -> getitem cpf 0 = Ret (nth 0 cpf 0%N).
Proof. intros H. eleven cpf H. reflexivity. Qed.

Lemma str_mul_char (c : char) (n : nat) :
  str_mul [c] (Z.of_nat n) = replicate n c.
Proof.
  unfold str_mul. rewrite Nat2Z.id.
  induction n as [|n IH]; [reflexivity|]. simpl. now rewrite IH.
Qed.

Lemma last_two_checksum (cpf : pystr) :
  normalized cpf -> length cpf = 11%nat ->
  slice_from cpf (-2)
  = format_int (check1 (digits cpf)) ++ format_int (check2 (digits cpf))
  <-> nth 9 (digits cpf) 0 = check1 (digits cpf)
      /\ nth 10 (digits cpf) 0 = check2 (digits cpf).
Proof.
  intros Hn Hl.
  pose proof (check_digit_range (weighted_sum (digits cpf) 10 9)) as H1.
  pose proof (check_digit_range (weighted_sum (digits cpf) 11 10)) as H2.
  fold (check1 (digits cpf)) in H1. fold (check2 (digits cpf)) in H2.
  rewrite slice_last_two, !format_int_digit by assumption.
  destruct (lookup_lt_is_Some_2 cpf 9) as [c9 E9]; [lia|].
  destruct (lookup_lt_is_Some_2 cpf 10) as [c10 E10]; [lia|].
  pose proof (Forall_lookup_1 _ _ _ _ Hn E9) as D9.
  pose proof (Forall_lookup_1 _ _ _ _ Hn E10) as D10.
  rewrite (digit_lookup _ _ _ E9), (digit_lookup _ _ _ E10).
  rewrite (nth_lookup_Some _ _ 0%N _ E9), (nth_lookup_Some _ _ 0%N _ E10).
  rewrite <- (digit_char_eq c9) by assumption.
  rewrite <- (digit_char_eq c10) by assumption.
  simpl. split.
  - intros E. now inversion E.
  - intros [-> ->]. reflexivity.
Qed.

(** [validar_cpf] raises nothing and returns [valid_digits] of the
    normalized input, whatever the input. *)
Lemma validar_cpf_decides (s : pystr) :
  validar_cpf s = Ret (valid_digits (limpar_cpf s)).
Proof.
  unfold validar_cpf, valid_digits, all_identical. cbv zeta.
  pose proof (limpar_cpf_normalized s) as Hn.
  set (cpf := limpar_cpf s) in *.
  destruct (Z.eqb_spec (len cpf) 11) as [Hl|Hl]; unfold len in Hl;
    cbn [negb].
  - assert (Hl' : length cpf = 11%nat) by lia.
    rewrite (bool_decide_eq_true_2 _ Hl'), getitem_first by assumption.
    cbn [bind andb]. change 11 with (Z.of_nat 11). rewrite str_mul_char.
    destruct (bool_decide (cpf = replicate 11 (nth 0 cpf 0%N)));
      cbn [negb andb]; [reflexivity|].
    rewrite validar_cpf_digitos_checks by (assumption || lia). cbn [bind].
    f_equal. unfold checksum_ok. rewrite <- bool_decide_and.
    apply bool_decide_ext. now apply last_two_checksum.
  - rewrite bool_decide_eq_false_2 by lia. reflexivity.
Qed.

(** ** The arithmetic of the two verification digits *)

Lemma weighted_sum_first (x0 x1 x2 x3 x4 x5 x6 x7 x8 x9 x10 : Z) :
  weighted_sum [x0; x1; x2; x3; x4; x5; x6; x7; x8; x9; x10] 10 9
  = 10 * x0 + 9 * x1 + 8 * x2 + 7 * x3 + 6 * x4 + 5 * x5 + 4 * x6 + 3 * x7
    + 2 * x8.
Proof. unfold weighted_sum. simpl. lia. Qed.

Lemma weighted_sum_second (x0 x1 x2 x3 x4 x5 x6 x7 x8 x9 x10 : Z) :
  weighted_sum [x0; x1; x2; x3; x4; x5; x6; x7; x8; x9; x10] 11 10
  = 11 * x0 + 10 * x1 + 9 * x2 + 8 * x3 + 7 * x4 + 6 * x5 + 5 * x6 + 4 * x7
    + 3 * x8 + 2 * x9.
Proof. unfold weighted_sum. simpl. lia. Qed.

Lemma weighted_sum_second_short (x0 x1 x2 x3 x4 x5 x6 x7 x8 x9 : Z) :
  weighted_sum [x0; x1; x2; x3; x4; x5; x6; x7; x8; x9] 11 10
  = 11 * x0 + 10 * x1 + 9 * x2 + 8 * x3 + 7 * x4 + 6 * x5 + 5 * x6 + 4 * x7
    + 3 * x8 + 2 * x9.
Proof. unfold weighted_sum. simpl. lia. Qed.

Lemma check_digit_cases (soma c : Z) :
  check_digit soma = c ->
  exists q r, soma = 11 * q + r /\ 0 <= r < 11 /\
              ((r < 2 /\ c = 0) \/ (2 <= r /\ c = 11 - r)).
Proof.
  intros <-. exists (soma / 11), (soma mod 11). unfold check_digit.
  pose proof (Z.div_mod soma 11 ltac:(lia)).
  pose proof (Z.mod_pos_bound soma 11 ltac:(lia)).
  destruct (Z.ltb_spec (soma mod 11) 2); lia.
Qed.

Lemma checksum_ok_iff (d : list Z) :
  checksum_ok d = true <-> nth 9 d 0 = check1 d /\ nth 10 d 0 = check2 d.
Proof.
  unfold checksum_ok. rewrite andb_true_iff, !bool_decide_eq_true. tauto.
Qed.

(** On 11 explicit digits the two matches are equations between a digit
    and the check digit of a linear sum. *)
Lemma checksum_ok_explicit (x0 x1 x2 x3 x4 x5 x6 x7 x8 x9 x10 : Z) :
  checksum_ok [x0; x1; x2; x3; x4; x5; x6; x7; x8; x9; x10] = true <->
  check_digit (10 * x0 + 9 * x1 + 8 * x2 + 7 * x3 + 6 * x4 + 5 * x5 + 4 * x6
               + 3 * x7 + 2 * x8) = x9
  /\ check_digit (11 * x0 + 10 * x1 + 9 * x2 + 8 * x3 + 7 * x4 + 6 * x5
                  + 5 * x6 + 4 * x7 + 3 * x8 + 2 * x9) = x10.
Proof.
  rewrite checksum_ok_iff. unfold check1, check2.
  rewrite weighted_sum_first, weighted_sum_second. cbn [nth].
  split; intros [A1 A2]; split; congruence.
Qed.

(** Two identifiers that both pass the checksum and differ in one digit
    only differ at position 0 or 5: at every other position the weights
    leave no change of a digit unseen by both verification digits. *)
Lemma checksum_collision (d : list Z) (p : nat) (v : Z) :
  length d = 11%nat -> Forall digit_range d -> digit_range v ->
  p ∈ checked_positions ->
  checksum_ok d = true -> checksum_ok (<[p:=v]> d) = true ->
  nth p d 0 = v.
Proof.
  intros Hl Hd Hv Hp H1 H2. eleven d Hl.
  repeat match goal with
         | H : Forall _ (_ :: _) |- _ => apply Forall_cons in H; destruct H
         end.
  unfold digit_range in *.
  apply checksum_ok_explicit in H1. destruct H1 as [A1 A2].
  apply check_digit_cases in A1, A2.
  destruct A1 as (q1 & r1 & E1 & B1 & C1).
  destruct A2 as (q2 & r2 & E2 & B2 & C2).
  unfold checked_positions in Hp.
  repeat (apply elem_of_cons in Hp; destruct Hp as [-> | Hp]);
    try (now apply elem_of_nil in Hp);
    cbn [list_insert insert] in H2;
    apply checksum_ok_explicit in H2; destruct H2 as [A1 A2];
    cbn [nth];
    apply check_digit_cases in A1, A2;
    destruct A1 as (q1' & r1' & E1' & B1' & C1');
    destruct A2 as (q2' & r2' & E2' & B2' & C2');
    lia.
Qed.

(** The verification digits are functions of the digits before them: no
    change confined to positions 9 and 10 passes the checksum. *)
Lemma checksum_check_positions (d : list Z) (v9 v10 : Z) :
  length d = 11%nat ->
  checksum_ok d = true ->
  checksum_ok (<[9%nat:=v9]> (<[10%nat:=v10]> d)) = true ->
  nth 9 d 0 = v9 /\ nth 10 d 0 = v10.
Proof.
  intros Hl H1 H2. eleven d Hl.
  cbn [list_insert insert] in H2.
  apply checksum_ok_explicit in H1, H2.
  destruct H1 as [A1 A2], H2 as [A1' A2']. cbn [nth].
  subst v9. split; congruence.
Qed.

(** Step 4 of the specification against the code: once digit 9 is known
    to be [check1], summing over the input's own first 10 digits and
    summing over its first 9 with [check1] appended are the same sum. *)
Lemma checksum_ok_spec (d : list Z) :
  length d = 11%nat ->
  bool_decide (nth 9 d 0 = check1 d)
  && bool_decide
       (nth 10 d 0 = check_digit (weighted_sum (take 9 d ++ [check1 d]) 11 10))
  = checksum_ok d.
Proof.
  intros Hl. unfold checksum_ok.
  destruct (decide (nth 9 d 0 = check1 d)) as [E|E].
  - rewrite <- E. f_equal. apply bool_decide_ext.
    eleven d Hl. unfold check2. cbn [firstn app nth].
    now rewrite weighted_sum_second, weighted_sum_second_short.
  - now rewrite !(bool_decide_eq_false_2 _ E).
Qed.

(** ** Identifiers with one digit changed *)

Lemma digit_value_inj (a b : char) : digit_value a = digit_value b -> a = b.
Proof. unfold digit_value. lia. Qed.

Lemma normalized_digits (cpf : pystr) :
  normalized cpf -> Forall digit_range (digits cpf).
Proof.
  intros H. unfold digits. apply Forall_fmap.
  eapply Forall_impl; [exact H|]. intros c Hc. now apply digit_value_range.
Qed.

Lemma digits_mutate (cpf : pystr) (p : nat) (v : char) :
  digits (mutate cpf p v) = <[p:=digit_value v]> (digits cpf).
Proof. apply list_fmap_insert. Qed.

Lemma length_digits (cpf : pystr) : length (digits cpf) = length cpf.
Proof. apply length_map. Qed.

Lemma validar_cpf_normalized (cpf : pystr) :
  normalized cpf -> validar_cpf cpf = Ret (valid_digits cpf).
Proof. intros H. now rewrite validar_cpf_decides, limpar_cpf_fixed. Qed.

Lemma valid_digits_true (cpf : pystr) :
  valid_digits cpf = true <->
  length cpf = 11%nat /\ ~ all_identical cpf /\ checksum_ok (digits cpf) = true.
Proof.
  unfold valid_digits.
  rewrite !andb_true_iff, negb_true_iff, bool_decide_eq_true,
    bool_decide_eq_false.
  tauto.
Qed.

Lemma validar_cpf_true (cpf : pystr) :
  normalized cpf -> validar_cpf cpf = Ret true ->
  length cpf = 11%nat /\ ~ all_identical cpf /\ checksum_ok (digits cpf) = true.
Proof.
  intros Hn H. rewrite validar_cpf_normalized in H by assumption.
  apply valid_digits_true. congruence.
Qed.

Lemma checksum_false_rejected (cpf : pystr) :
  normalized cpf -> checksum_ok (digits cpf) = false ->
  validar_cpf cpf = Ret false.
Proof.
  intros Hn H. rewrite validar_cpf_normalized by assumption.
  unfold valid_digits. rewrite H. now rewrite andb_false_r.
Qed.

Lemma checked_positions_lt (p : nat) : p ∈ checked_positions -> (p < 11)%nat.
Proof.
  unfold checked_positions. intros H.
  repeat (apply elem_of_cons in H; destruct H as [-> | H]; [lia|]).
  now apply elem_of_nil in H.
Qed.

(** At a checked position, a valid identifier with that digit changed is
    rejected. *)
Lemma mutation_rejected (cpf : pystr) (p : nat) (v : char) :
  normalized cpf -> validar_cpf cpf = Ret true ->
  p ∈ checked_positions -> decimal_digit v -> cpf !! p <> Some v ->
  validar_cpf (mutate cpf p v) = Ret false.
Proof.
  intros Hn Hv Hp Hd Hne.
  destruct (validar_cpf_true _ Hn Hv) as (Hl & _ & Hc).
  apply checksum_false_rejected; [now apply Forall_insert|].
  destruct (checksum_ok (digits (mutate cpf p v))) eqn:E; [exfalso|reflexivity].
  rewrite digits_mutate in E.
  apply checksum_collision in E; try assumption.
  - destruct (lookup_lt_is_Some_2 cpf p) as [c Ec].
    { rewrite Hl. now apply checked_positions_lt. }
    rewrite (digit_lookup _ _ _ Ec) in E. apply digit_value_inj in E.
    congruence.
  - now rewrite length_digits.
  - now apply normalized_digits.
  - now apply digit_value_range.
Qed.

Lemma digit_chars_digits (v : char) : In v digit_chars -> decimal_digit v.
Proof.
  unfold digit_chars, decimal_digit. simpl.
  intros H. repeat (destruct H as [<- | H]; [lia|]). destruct H.
Qed.

Lemma sensitive_checked (cpf : pystr) (p : nat) :
  normalized cpf -> validar_cpf cpf = Ret true ->
  p ∈ checked_positions -> sensitive cpf p = true.
Proof.
  intros Hn Hv Hp. unfold sensitive. apply forallb_forall. intros v Hin.
  destruct (decide (cpf !! p = Some v)) as [E|E].
  - now rewrite (bool_decide_eq_true_2 _ E).
  - rewrite (mutation_rejected _ _ _ Hn Hv Hp (digit_chars_digits _ Hin) E).
    apply orb_true_r.
Qed.

Lemma sensitive_positions_count (cpf : pystr) :
  normalized cpf -> validar_cpf cpf = Ret true ->
  (9 <= length (sensitive_positions cpf))%nat.
Proof.
  intros Hn Hv. unfold sensitive_positions. cbn [seq List.filter].
  pose proof (fun p => sensitive_checked cpf p Hn Hv) as Hs.
  rewrite (Hs 1%nat), (Hs 2%nat), (Hs 3%nat), (Hs 4%nat), (Hs 6%nat),
    (Hs 7%nat), (Hs 8%nat), (Hs 9%nat), (Hs 10%nat)
    by (unfold checked_positions;
        repeat first [apply list_elem_of_here | apply list_elem_of_further]).
  destruct (sensitive cpf 0), (sensitive cpf 5); simpl; lia.
Qed.

(** ** All identical *)

Lemma all_identical_iff (cpf : pystr) :
  all_identical cpf <-> exists c, cpf = replicate 11 c.
Proof.
  unfold all_identical. split; [eauto|].
  intros [c ->]. reflexivity.
Qed.

Lemma all_identical_digits (cpf : pystr) :
  all_identical cpf <-> exists x, digits cpf = replicate 11 x.
Proof.
  rewrite all_identical_iff. split.
  - intros [c ->]. exists (digit_value c). apply fmap_replicate.
  - intros [x H].
    assert (Hl : length cpf = 11%nat).
    { rewrite <- length_digits, H. apply length_replicate. }
    exists (nth 0 cpf 0%N). eleven cpf Hl. cbn in H |- *.
    injection H as H0 H1 H2 H3 H4 H5 H6 H7 H8 H9 H10. subst x.
    repeat match goal with
           | H : digit_value _ = digit_value _ |- _ =>
               apply digit_value_inj in H; subst
           end.
    reflexivity.
Qed.

Lemma getitem_elem (s : pystr) (i : Z) (c : char) :
  getitem s i = Ret c -> c ∈ s.
Proof.
  unfold getitem. cbv zeta.
  destruct (_ <? 0); [discriminate|].
  destruct (s !! _) as [c'|] eqn:E; [|discriminate].
  intros [= <-]. eapply list_elem_of_lookup_2, E.
Qed.

Lemma spec_is_valid_decides (cpf : pystr) : spec_is_valid cpf = valid_digits cpf.
Proof.
  unfold spec_is_valid, valid_digits. cbv zeta. rewrite length_digits.
  destruct (decide (length cpf = 11%nat)) as [Hl|Hl].
  - rewrite (bool_decide_eq_true_2 _ Hl). cbn [negb andb].
    assert (E : bool_decide (digits cpf = replicate 11 (nth 0 (digits cpf) 0))
                = bool_decide (all_identical cpf)).
    { apply bool_decide_ext. rewrite all_identical_digits. split; [eauto|].
      intros [x ->]. reflexivity. }
    rewrite E. destruct (bool_decide (all_identical cpf)); [reflexivity|].
    cbn [negb]. apply checksum_ok_spec. now rewrite length_digits.
  - now rewrite (bool_decide_eq_false_2 _ Hl).
Qed.

(** * The claims *)

(** C1. For every input whose normalized form has exactly 11 digits
    d_0 .. d_10 that are not all identical, [validar_cpf] returns true if
    and only if d_9 is [check1] and d_10 is [check2] (and it does return):
    [check1] comes from the sum of d_i * (10 - i) over i = 0..8, [check2]
    from the sum of d_i * (11 - i) over the first 10 digits, each being 0
    when the sum mod 11 is less than 2 and 11 minus it otherwise. *)
Theorem validar_cpf_checksum (s : pystr) (d : list Z) :
  d = digits (limpar_cpf s) ->
  length d = 11%nat ->
  ~ (exists x, d = replicate 11 x) ->
  (validar_cpf s = Ret true <-> nth 9 d 0 = check1 d /\ nth 10 d 0 = check2 d)
  /\ (exists b, validar_cpf s = Ret b).
Proof.
  intros -> Hl Hne. rewrite length_digits in Hl.
  rewrite <- all_identical_digits in Hne.
  rewrite validar_cpf_decides. split; [|eauto].
  rewrite <- checksum_ok_iff. split.
  - intros [= H]. now apply valid_digits_true in H.
  - intros H. f_equal. now apply valid_digits_true.
Qed.

(** C2. On every normalized 11-digit input the code, which takes the
    second verification digit from the first 10 digits of the input, and
    the algorithm of the specification, which takes it from the first 9
    digits followed by the [check1] just computed, give the same
    boolean. *)
Theorem validar_cpf_refines_spec (cpf : pystr) :
  normalized cpf -> length cpf = 11%nat ->
  validar_cpf cpf = Ret (spec_is_valid cpf).
Proof.
  intros Hn _. rewrite spec_is_valid_decides.
  now apply validar_cpf_normalized.
Qed.

(** C3, as amended. In a normalized identifier that [validar_cpf]
    accepts, at least 9 of the 11 positions are sensitive: changing the
    digit at any position but 0 and 5 to a different digit gives an input
    that is rejected. Any change confined to positions 9 and 10 is
    rejected, and so is any change of one of the first 9 digits after
    which a recomputed verification digit differs from digit 9 or 10. *)
Theorem single_digit_change_rejected (cpf : pystr) :
  normalized cpf -> validar_cpf cpf = Ret true ->
  (9 <= length (sensitive_positions cpf))%nat
  /\ (forall p v, p ∈ checked_positions -> decimal_digit v ->
                  cpf !! p <> Some v ->
                  validar_cpf (mutate cpf p v) = Ret false)
  /\ (forall v9 v10, decimal_digit v9 -> decimal_digit v10 ->
                     cpf !! 9%nat <> Some v9 \/ cpf !! 10%nat <> Some v10 ->
                     validar_cpf (mutate (mutate cpf 10 v10) 9 v9) = Ret false)
  /\ (forall p v, (p < 9)%nat -> decimal_digit v ->
                  check1 (digits (mutate cpf p v)) <> nth 9 (digits cpf) 0
                  \/ check2 (digits (mutate cpf p v)) <> nth 10 (digits cpf) 0 ->
                  validar_cpf (mutate cpf p v) = Ret false).
Proof.
  intros Hn Hv. destruct (validar_cpf_true _ Hn Hv) as (Hl & _ & Hc).
  split; [now apply sensitive_positions_count|].
  split; [intros p v; now apply mutation_rejected|].
  split.
  - intros v9 v10 H9 H10 Hne.
    apply checksum_false_rejected; [now repeat apply Forall_insert|].
    destruct (checksum_ok (digits (mutate (mutate cpf 10 v10) 9 v9))) eqn:E;
      [exfalso|reflexivity].
    rewrite !digits_mutate in E.
    apply checksum_check_positions in E;
      [|now rewrite length_digits|assumption].
    destruct E as [E9 E10].
    destruct (lookup_lt_is_Some_2 cpf 9) as [c9 L9]; [lia|].
    destruct (lookup_lt_is_Some_2 cpf 10) as [c10 L10]; [lia|].
    rewrite (digit_lookup _ _ _ L9) in E9.
    rewrite (digit_lookup _ _ _ L10) in E10.
    apply digit_value_inj in E9, E10. subst. tauto.
  - intros p v Hp Hd Hne.
    apply checksum_false_rejected; [now apply Forall_insert|].
    destruct (checksum_ok (digits (mutate cpf p v))) eqn:E;
      [exfalso|reflexivity].
    apply checksum_ok_iff in E. destruct E as [E9 E10].
    rewrite digits_mutate in E9 at 1. rewrite digits_mutate in E10 at 1.
    rewrite !nth_lookup in E9, E10.
    rewrite list_lookup_insert_ne in E9 by lia.
    rewrite list_lookup_insert_ne in E10 by lia.
    rewrite !nth_lookup in Hne. destruct Hne; congruence.
Qed.

(** C4. [validar_cpf] normalizes its argument itself: it judges every
    string as it judges the digits-only projection of that string; the
    formatted identifier 123.456.789-09 is judged as 12345678909. *)
Theorem validar_cpf_normalizes (x : pystr) :
  validar_cpf x = validar_cpf (limpar_cpf x)
  /\ limpar_cpf (py "123.456.789-09") = py "12345678909"
  /\ validar_cpf (py "123.456.789-09") = validar_cpf (py "12345678909").
Proof.
  assert (H : forall y, validar_cpf y = validar_cpf (limpar_cpf y)).
  { intros y. rewrite !validar_cpf_decides.
    now rewrite (limpar_cpf_fixed _ (limpar_cpf_normalized y)). }
  split; [apply H|]. split; [reflexivity|].
  rewrite (H (py "123.456.789-09")). reflexivity.
Qed.

(** C5. [validar_cpf] is false whenever the normalized input does not
    have length 11; the empty string and every purely alphabetic string
    are rejected. *)
Theorem validar_cpf_length :
  (forall x, length (limpar_cpf x) <> 11%nat -> validar_cpf x = Ret false)
  /\ validar_cpf [] = Ret false
  /\ (forall x, Forall letter x ->
                limpar_cpf x = [] /\ validar_cpf x = Ret false).
Proof.
  assert (H : forall x, length (limpar_cpf x) <> 11%nat ->
                        validar_cpf x = Ret false).
  { intros x Hl. rewrite validar_cpf_decides. unfold valid_digits.
    now rewrite (bool_decide_eq_false_2 _ Hl). }
  split; [exact H|]. split; [reflexivity|].
  intros x Hx.
  assert (E : limpar_cpf x = []).
  { induction Hx as [|c x Hc _ IH]; [reflexivity|].
    rewrite limpar_cpf_cons, IH.
    replace (is_0_9 c) with false; [reflexivity|].
    symmetry. apply is_0_9_false. unfold letter, decimal_digit in *. lia. }
  split; [exact E|]. apply H. now rewrite E.
Qed.

(** C6. An input whose 11 digits are all the same one is rejected, also
    when its last two digits are the verification digits of the first 9
    (as in 00000000000). *)
Theorem validar_cpf_all_identical :
  (forall s c, limpar_cpf s = replicate 11 c -> validar_cpf s = Ret false)
  /\ (forall c, validar_cpf (replicate 11 c) = Ret false)
  /\ (checksum_ok (digits (py "00000000000")) = true
      /\ validar_cpf (py "00000000000") = Ret false).
Proof.
  assert (H : forall s c, limpar_cpf s = replicate 11 c ->
                          validar_cpf s = Ret false).
  { intros s c E. rewrite validar_cpf_decides, E. unfold valid_digits.
    rewrite (bool_decide_eq_true_2 (all_identical (replicate 11 c)));
      [|apply all_identical_iff; eauto].
    now rewrite andb_false_r. }
  split; [exact H|]. split; [|split; reflexivity].
  intros c. destruct (decide (decimal_digit c)) as [Hc|Hc].
  - apply (H _ c), limpar_cpf_fixed. now apply Forall_replicate.
  - apply is_0_9_false in Hc. rewrite validar_cpf_decides.
    cbn [replicate]. rewrite !limpar_cpf_cons, !Hc. reflexivity.
Qed.

(** C7. [limpar_cpf] maps any string, the empty one included, to the
    subsequence of its characters '0'..'9', in their order: the result
    holds digits only, and exactly the digits of the input, is a
    subsequence of the input and is no longer than it. *)
Theorem limpar_cpf_digits (s : pystr) :
  limpar_cpf s = filter decimal_digit s
  /\ normalized (limpar_cpf s)
  /\ (forall c, c ∈ limpar_cpf s <-> c ∈ s /\ decimal_digit c)
  /\ sublist (limpar_cpf s) s
  /\ (length (limpar_cpf s) <= length s)%nat
  /\ limpar_cpf [] = [].
Proof.
  split; [apply limpar_cpf_filter|].
  split; [apply limpar_cpf_normalized|].
  rewrite limpar_cpf_filter.
  split; [intros c; rewrite list_elem_of_filter; tauto|].
  split; [apply sublist_filter|].
  split; [apply length_filter|reflexivity].
Qed.

(** C8. The vectors of the specification: 529.982.247-25 normalizes to
    52998224725 and is valid; 111.111.111-11 is invalid; 123.456.789-00
    normalizes to 12345678900 and is invalid. *)
Theorem validar_cpf_vectors :
  limpar_cpf (py "529.982.247-25") = py "52998224725"
  /\ validar_cpf (py "52998224725") = Ret true
  /\ validar_cpf (py "529.982.247-25") = Ret true
  /\ validar_cpf (py "111.111.111-11") = Ret false
  /\ limpar_cpf (py "123.456.789-00") = py "12345678900"
  /\ validar_cpf (py "12345678900") = Ret false
  /\ validar_cpf (py "123.456.789-00") = Ret false.
Proof. repeat split; vm_compute; reflexivity. Qed.

(** C9. [validar_cpf] returns a boolean on every string and raises
    nothing, whatever [int] does outside '0'..'9': an input whose digits
    are too few, too many, all identical or fail the checksum gives
    false, every character that indexing the normalized input yields is a
    decimal digit on which [int] succeeds, and the indices 0..9 that the
    function reads are in range. *)
Theorem validar_cpf_total (s : pystr) :
  validar_cpf s = Ret (valid_digits (limpar_cpf s))
  /\ (exists b, validar_cpf s = Ret b)
  /\ (length (limpar_cpf s) <> 11%nat -> validar_cpf s = Ret false)
  /\ (all_identical (limpar_cpf s) -> validar_cpf s = Ret false)
  /\ (checksum_ok (digits (limpar_cpf s)) = false -> validar_cpf s = Ret false)
  /\ (forall i c, getitem (limpar_cpf s) i = Ret c ->
                  decimal_digit c /\ int_char c = Ret (digit_value c))
  /\ (length (limpar_cpf s) = 11%nat ->
      forall i, 0 <= i < 10 -> exists c, getitem (limpar_cpf s) i = Ret c).
Proof.
  pose proof (limpar_cpf_normalized s) as Hn.
  split; [apply validar_cpf_decides|].
  split; [rewrite validar_cpf_decides; eauto|].
  split.
  { intros Hl. rewrite validar_cpf_decides. unfold valid_digits.
    now rewrite (bool_decide_eq_false_2 _ Hl). }
  split.
  { intros Ha. rewrite validar_cpf_decides. unfold valid_digits.
    rewrite (bool_decide_eq_true_2 _ Ha). now rewrite andb_false_r. }
  split.
  { intros Hc. rewrite validar_cpf_decides. unfold valid_digits.
    rewrite Hc. now rewrite andb_false_r. }
  split.
  - intros i c Hi. apply getitem_elem in Hi.
    assert (Hc : decimal_digit c).
    { unfold normalized in Hn. rewrite Forall_forall in Hn. now apply Hn. }
    split; [exact Hc|now apply int_char_digit].
  - intros Hl i Hi.
    destruct (lookup_lt_is_Some_2 (limpar_cpf s) (Z.to_nat i)) as [c Hc];
      [lia|].
    exists c. rewrite <- (Z2Nat.id i) by lia. now apply getitem_lookup.
Qed.

(** C10. On every input that reaches the checksum (11 digits, not all
    identical) [digito1] and [digito2] lie in 0..9, so the formatted
    string of the two has exactly two characters, and comparing it with
    the last two characters of the input is comparing the two
    verification digits with digits 9 and 10. *)
Theorem validar_cpf_digitos_range (s cpf : pystr) :
  cpf = limpar_cpf s -> length cpf = 11%nat -> ~ all_identical cpf ->
  exists digito1 digito2,
    validar_cpf_digitos cpf = Ret (digito1, digito2)
    /\ 0 <= digito1 <= 9 /\ 0 <= digito2 <= 9
    /\ length (format_int digito1 ++ format_int digito2) = 2%nat
    /\ (slice_from cpf (-2) = format_int digito1 ++ format_int digito2
        <-> nth 9 (digits cpf) 0 = digito1 /\ nth 10 (digits cpf) 0 = digito2).
Proof.
  intros -> Hl _. pose proof (limpar_cpf_normalized s) as Hn.
  set (cpf := limpar_cpf s) in *.
  exists (check1 (digits cpf)), (check2 (digits cpf)).
  pose proof (check_digit_range (weighted_sum (digits cpf) 10 9)) as H1.
  pose proof (check_digit_range (weighted_sum (digits cpf) 11 10)) as H2.
  fold (check1 (digits cpf)) in H1. fold (check2 (digits cpf)) in H2.
  split; [apply validar_cpf_digitos_checks; [assumption|lia]|].
  split; [exact H1|]. split; [exact H2|].
  split; [now rewrite !format_int_digit|].
  now apply last_two_checksum.
Qed.

(** X1. [limpar_cpf] is idempotent. *)
Theorem limpar_cpf_twice (x : pystr) : limpar_cpf (limpar_cpf x) = limpar_cpf x.
Proof. apply limpar_cpf_fixed, limpar_cpf_normalized. Qed.

(** * Further properties of the validator *)

Lemma limpar_cpf_concat (a b : pystr) :
  limpar_cpf (a ++ b) = limpar_cpf a ++ limpar_cpf b.
Proof. rewrite !limpar_cpf_filter. apply filter_app. Qed.

Lemma limpar_cpf_no_digit (f : pystr) :
  Forall (fun c => ~ decimal_digit c) f -> limpar_cpf f = [].
Proof.
  intros H. induction H as [|c f Hc _ IH]; [reflexivity|].
  apply is_0_9_false in Hc. now rewrite limpar_cpf_cons, Hc.
Qed.

Lemma digits_inj (c1 c2 : pystr) : digits c1 = digits c2 -> c1 = c2.
Proof.
  revert c2. induction c1 as [|a c1 IH]; intros [|b c2] H;
    try discriminate H; [reflexivity|].
  injection H as Hab H. apply digit_value_inj in Hab. subst b.
  f_equal. now apply IH.
Qed.

Lemma digit_value_of_check (d : Z) :
  0 <= d <= 9 ->
  decimal_digit (Z.to_N (48 + d)) /\ digit_value (Z.to_N (48 + d)) = d.
Proof. unfold decimal_digit, digit_value. lia. Qed.

(** Two digit strings that pass the checksum and share their first nine
    digits are equal: digit 9 is a function of the first nine digits, and
    digit 10 of the first ten. *)
Lemma checksum_prefix (d e : list Z) :
  length d = 11%nat -> length e = 11%nat -> take 9 d = take 9 e ->
  checksum_ok d = true -> checksum_ok e = true -> d = e.
Proof.
  intros Hd He Ht Cd Ce. eleven d Hd. eleven e He.
  cbn [firstn] in Ht. injection Ht as -> -> -> -> -> -> -> -> ->.
  apply checksum_ok_explicit in Cd, Ce.
  destruct Cd as [D1 D2], Ce as [E1 E2]. congruence.
Qed.

(** Exchanging two adjacent digits among the first nine moves the first
    sum by their difference, which the first verification digit sees
    unless the two digits differ by at most 1. *)
Lemma checksum_transposition (d : list Z) (i : nat) (x y : Z) :
  length d = 11%nat -> Forall digit_range d -> (i < 8)%nat ->
  d !! i = Some x -> d !! S i = Some y -> 2 <= Z.abs (x - y) ->
  checksum_ok d = true ->
  checksum_ok (<[i:=y]> (<[S i:=x]> d)) = false.
Proof.
  intros Hl Hd Hi Hx Hy Hxy H1. eleven d Hl.
  repeat match goal with
         | H : Forall _ (_ :: _) |- _ => apply Forall_cons in H; destruct H
         end.
  unfold digit_range in *.
  apply checksum_ok_explicit in H1. destruct H1 as [A1 _].
  apply check_digit_cases in A1. destruct A1 as (q1 & r1 & E1 & B1 & C1).
  do 8 (destruct i as [|i]; [
    cbn in Hx, Hy; injection Hx as <-; injection Hy as <-;
    cbn [list_insert insert];
    match goal with
    | |- ?b = false => destruct b eqn:Hsw; [exfalso|reflexivity]
    end;
    apply checksum_ok_explicit in Hsw; destruct Hsw as [A1 _];
    apply check_digit_cases in A1;
    destruct A1 as (q1' & r1' & E1' & B1' & C1'); lia |]).
  lia.
Qed.

(** X2. [limpar_cpf] distributes over concatenation: normalizing a
    string in pieces gives the pieces of its normalization. *)
Theorem limpar_cpf_app (a b : pystr) :
  limpar_cpf (a ++ b) = limpar_cpf a ++ limpar_cpf b.
Proof. apply limpar_cpf_concat. Qed.

(** X3. Characters other than '0'..'9' count for nothing, wherever they
    stand: [validar_cpf] gives the same result with and without a run of
    them inside its argument. *)
Theorem validar_cpf_ignores_separators (a f b : pystr) :
  Forall (fun c => ~ decimal_digit c) f ->
  validar_cpf (a ++ f ++ b) = validar_cpf (a ++ b).
Proof.
  intros Hf. rewrite !validar_cpf_decides, !limpar_cpf_concat.
  now rewrite (limpar_cpf_no_digit _ Hf).
Qed.

(** X4. Every string of 11 identical digits passes the checksum: both
    [digito1] and [digito2] come out as that digit and the final
    comparison of [validar_cpf] would hold, so the test of line 241 is
    what rejects these strings. *)
Theorem identical_digits_pass_checksum (c : char) :
  decimal_digit c ->
  validar_cpf_digitos (replicate 11 c) = Ret (digit_value c, digit_value c)
  /\ slice_from (replicate 11 c) (-2)
     = format_int (digit_value c) ++ format_int (digit_value c)
  /\ validar_cpf (replicate 11 c) = Ret false.
Proof.
  intros Hc.
  assert (H : (c = 48 \/ c = 49 \/ c = 50 \/ c = 51 \/ c = 52 \/ c = 53 \/
               c = 54 \/ c = 55 \/ c = 56 \/ c = 57)%N)
    by (unfold decimal_digit in Hc; lia).
  repeat (destruct H as [-> | H]; [repeat split; vm_compute; reflexivity|]).
  subst c. repeat split; vm_compute; reflexivity.
Qed.

(** X5. The first nine digits determine a valid CPF: two inputs that
    [validar_cpf] accepts and whose normalized forms share their first
    nine digits have the same normalized form. *)
Theorem valid_cpf_determined_by_prefix (s1 s2 : pystr) :
  validar_cpf s1 = Ret true -> validar_cpf s2 = Ret true ->
  take 9 (limpar_cpf s1) = take 9 (limpar_cpf s2) ->
  limpar_cpf s1 = limpar_cpf s2.
Proof.
  rewrite !validar_cpf_decides. intros [= H1] [= H2] Ht.
  apply valid_digits_true in H1, H2.
  destruct H1 as (L1 & _ & C1), H2 as (L2 & _ & C2).
  apply digits_inj, checksum_prefix; try assumption;
    try (now rewrite length_digits).
  unfold digits. now rewrite <- !fmap_take, Ht.
Qed.

(** X6. Every nine digits can be completed: for a string of nine digits
    there are two digit characters that make the checksum hold, and
    [validar_cpf] accepts the completed string unless its 11 digits are
    all identical. *)
Theorem valid_cpf_completion (base : pystr) :
  normalized base -> length base = 9%nat ->
  exists a b,
    decimal_digit a /\ decimal_digit b
    /\ checksum_ok (digits (base ++ [a; b])) = true
    /\ validar_cpf (base ++ [a; b])
       = Ret (negb (bool_decide (all_identical (base ++ [a; b])))).
Proof.
  intros Hn Hl.
  do 9 (destruct base as [|? base]; [discriminate Hl|]).
  destruct base; [clear Hl | discriminate Hl].
  match goal with
  | |- context [[?c0; ?c1; ?c2; ?c3; ?c4; ?c5; ?c6; ?c7; ?c8] ++ _] =>
      pose (d1 := check_digit
                    (10 * digit_value c0 + 9 * digit_value c1
                     + 8 * digit_value c2 + 7 * digit_value c3
                     + 6 * digit_value c4 + 5 * digit_value c5
                     + 4 * digit_value c6 + 3 * digit_value c7
                     + 2 * digit_value c8));
      pose (d2 := check_digit
                    (11 * digit_value c0 + 10 * digit_value c1
                     + 9 * digit_value c2 + 8 * digit_value c3
                     + 7 * digit_value c4 + 6 * digit_value c5
                     + 5 * digit_value c6 + 4 * digit_value c7
                     + 3 * digit_value c8 + 2 * d1))
  end.
  destruct (digit_value_of_check d1 (check_digit_range _)) as [Da Va].
  destruct (digit_value_of_check d2 (check_digit_range _)) as [Db Vb].
  exists (Z.to_N (48 + d1)), (Z.to_N (48 + d2)).
  split; [exact Da|]. split; [exact Db|].
  match goal with
  | |- ?C = true /\ _ => assert (Hc : C = true)
  end.
  { cbn [app digits map]. apply checksum_ok_explicit.
    rewrite Va, Vb. split; reflexivity. }
  split; [exact Hc|].
  rewrite validar_cpf_normalized.
  - unfold valid_digits. rewrite Hc, andb_true_r.
    now rewrite bool_decide_eq_true_2 by reflexivity.
  - apply Forall_app. split; [exact Hn|].
    constructor; [exact Da|]. constructor; [exact Db|]. constructor.
Qed.

(** X7. Exchanging two adjacent digits among the first nine of a valid
    normalized CPF gives an input that [validar_cpf] rejects, whenever
    the two digits differ by 2 or more. *)
Theorem adjacent_transposition_rejected (cpf : pystr) (i : nat) (a b : char) :
  normalized cpf -> validar_cpf cpf = Ret true ->
  (i < 8)%nat -> cpf !! i = Some a -> cpf !! S i = Some b ->
  2 <= Z.abs (digit_value a - digit_value b) ->
  validar_cpf (transpose cpf i) = Ret false.
Proof.
  intros Hn Hv Hi Ha Hb Hab.
  destruct (validar_cpf_true _ Hn Hv) as (Hl & _ & Hc).
  assert (Da : decimal_digit a) by (eapply Forall_lookup_1; eassumption).
  assert (Db : decimal_digit b) by (eapply Forall_lookup_1; eassumption).
  unfold transpose. rewrite Ha, Hb.
  apply checksum_false_rejected; [now repeat apply Forall_insert|].
  unfold digits. rewrite !list_fmap_insert.
  apply checksum_transposition; try assumption.
  - now rewrite length_digits.
  - now apply normalized_digits.
  - unfold digits. now rewrite list_lookup_fmap, Ha.
  - unfold digits. now rewrite list_lookup_fmap, Hb.
Qed.

(** * The lookup of an athlete by CPF *)

Section LookupProperties.

Variable AtletaModel : Type.
Variable truthy : AtletaModel -> bool.
Variable first_by_cpf : pystr -> answer AtletaModel.

(** The handler normalizes and [validar_cpf] normalizes again; the second
    pass changes nothing, so the handler validates what [validar_cpf]
    would make of the raw parameter. *)
Lemma validar_cpf_limpo (cpf : pystr) :
  validar_cpf (limpar_cpf cpf) = Ret (valid_digits (limpar_cpf cpf))
  /\ validar_cpf cpf = Ret (valid_digits (limpar_cpf cpf)).
Proof.
  rewrite !validar_cpf_decides.
  now rewrite (limpar_cpf_fixed _ (limpar_cpf_normalized cpf)).
Qed.

(** X8. The handler of "/cpf/{cpf}" ends in one of four ways and lets no
    exception of the validator escape. When [validar_cpf] rejects the
    raw parameter it raises 400 with a detail that ends in the raw
    parameter, and queries nothing. Otherwise it queries once, with the
    digits of the parameter as key, and passes an exception of the
    session through, raises 404 (detail ending in the raw parameter) when
    the first row is [None] or falsy, or returns the first row. *)
Theorem get_outcome (cpf : pystr) :
  (validar_cpf cpf = Ret false
   /\ fst (get truthy first_by_cpf cpf) = []
   /\ exists msg, snd (get truthy first_by_cpf cpf)
                  = HTTPException HTTP_400_BAD_REQUEST (msg ++ cpf))
  \/ (validar_cpf cpf = Ret true
      /\ fst (get truthy first_by_cpf cpf) = [limpar_cpf cpf]
      /\ ((first_by_cpf (limpar_cpf cpf) = SessionError
           /\ snd (get truthy first_by_cpf cpf) = SessionFailure)
          \/ (exists v msg,
                 first_by_cpf (limpar_cpf cpf) = First v
                 /\ falsy truthy v = true
                 /\ snd (get truthy first_by_cpf cpf)
                    = HTTPException HTTP_404_NOT_FOUND (msg ++ cpf))
          \/ (exists a,
                 first_by_cpf (limpar_cpf cpf) = First (Some a)
                 /\ truthy a = true
                 /\ snd (get truthy first_by_cpf cpf) = Returned (Some a)))).
Proof.
  destruct (validar_cpf_limpo cpf) as [E1 E2].
  unfold get. cbv zeta. rewrite E1, E2.
  destruct (valid_digits (limpar_cpf cpf)); cbn [negb].
  - right. split; [reflexivity|].
    destruct (first_by_cpf (limpar_cpf cpf)) as [v|] eqn:Ef.
    + destruct (falsy truthy v) eqn:Ev; cbn [fst snd].
      * split; [reflexivity|]. right. left. exists v.
        exists (py "Atleta n" ++ [227%N] ++ py "o encontrado com CPF: ").
        split; [reflexivity|]. split; [exact Ev|reflexivity].
      * split; [reflexivity|]. right. right.
        destruct v as [a|]; [|discriminate Ev]. exists a.
        cbn [falsy] in Ev. apply negb_false_iff in Ev.
        split; [reflexivity|]. split; [exact Ev|reflexivity].
    + cbn [fst snd]. split; [reflexivity|]. left.
      split; reflexivity.
  - left. split; [reflexivity|]. cbn [fst snd]. split; [reflexivity|].
    exists (py "CPF inv" ++ [225%N] ++ py "lido: "). reflexivity.
Qed.

(** X9. The session only ever sees validated keys: every key the handler
    queries with is the normalized parameter, made of exactly 11 decimal
    digits that are not all identical and pass the checksum, and it is
    the only key queried. *)
Theorem get_queries_validated (cpf key : pystr) :
  key ∈ fst (get truthy first_by_cpf cpf) ->
  key = limpar_cpf cpf
  /\ fst (get truthy first_by_cpf cpf) = [key]
  /\ normalized key /\ length key = 11%nat /\ ~ all_identical key
  /\ checksum_ok (digits key) = true
  /\ validar_cpf key = Ret true.
Proof.
  destruct (validar_cpf_limpo cpf) as [E1 _].
  unfold get. cbv zeta. rewrite E1.
  destruct (valid_digits (limpar_cpf cpf)) eqn:Ev; cbn [negb].
  - assert (Hk : forall o : list pystr * outcome (option AtletaModel),
               fst o = [limpar_cpf cpf] -> key ∈ fst o ->
               key = limpar_cpf cpf /\ fst o = [key]).
    { intros o Ho Hin. rewrite Ho in Hin |- *.
      apply list_elem_of_singleton in Hin. now subst. }
    intros Hin. apply Hk in Hin.
    + destruct Hin as [Hkey Hq]. split; [exact Hkey|]. split; [exact Hq|].
      apply valid_digits_true in Ev. destruct Ev as (L & A & C).
      rewrite Hkey.
      split; [apply limpar_cpf_normalized|].
      split; [exact L|]. split; [exact A|]. split; [exact C|].
      exact E1.
    + destruct (first_by_cpf (limpar_cpf cpf)) as [v|];
        [destruct (falsy truthy v)|]; reflexivity.
  - cbn [fst]. intros Hin. now apply elem_of_nil in Hin.
Qed.

(** X10. The handler is insensitive to formatting: two parameters with
    the same digits lead to the same queries, the same status code, the
    same returned row and the same session failure; only the detail text,
    which quotes the raw parameter, can differ. *)
Theorem get_format_insensitive (c1 c2 : pystr) :
  limpar_cpf c1 = limpar_cpf c2 ->
  fst (get truthy first_by_cpf c1) = fst (get truthy first_by_cpf c2)
  /\ status_of (snd (get truthy first_by_cpf c1))
     = status_of (snd (get truthy first_by_cpf c2))
  /\ returned_of (snd (get truthy first_by_cpf c1))
     = returned_of (snd (get truthy first_by_cpf c2))
  /\ (snd (get truthy first_by_cpf c1) = SessionFailure
      <-> snd (get truthy first_by_cpf c2) = SessionFailure).
Proof.
  intros E. unfold get. cbv zeta. rewrite E.
  destruct (validar_cpf_limpo c2) as [-> _].
  destruct (valid_digits (limpar_cpf c2)); cbn [negb].
  - destruct (first_by_cpf (limpar_cpf c2)) as [v|];
      [destruct (falsy truthy v)|];
      cbn [fst snd status_of returned_of];
      (split; [reflexivity|]); (split; [reflexivity|]);
      (split; [reflexivity|]); split; intros H; (exact H || discriminate H).
  - cbn [fst snd status_of returned_of].
    split; [reflexivity|]. split; [reflexivity|]. split; [reflexivity|].
    split; intros H; discriminate H.
Qed.

End LookupProperties.

End Validator.

Arguments falsy {AtletaModel} truthy atleta.
Arguments get unicode_digit {AtletaModel} truthy first_by_cpf cpf.

(** * The claims at concrete inputs *)

Lemma normalized_valido : normalized (py "52998224725").
Proof. unfold normalized. by_decide. Defined.

Lemma validar_cpf_checksum_witness :
  (validar_cpf no_unicode_digit (py "529.982.247-25") = Ret true
   <-> nth 9 [5; 2; 9; 9; 8; 2; 2; 4; 7; 2; 5] 0
       = check1 [5; 2; 9; 9; 8; 2; 2; 4; 7; 2; 5]
       /\ nth 10 [5; 2; 9; 9; 8; 2; 2; 4; 7; 2; 5] 0
          = check2 [5; 2; 9; 9; 8; 2; 2; 4; 7; 2; 5])
  /\ (exists b, validar_cpf no_unicode_digit (py "529.982.247-25") = Ret b).
Proof.
  apply (validar_cpf_checksum no_unicode_digit (py "529.982.247-25")).
  - reflexivity.
  - reflexivity.
  - intros [x H]. vm_compute in H. congruence.
Defined.

Lemma validar_cpf_refines_spec_witness :
  validar_cpf no_unicode_digit (py "52998224725")
  = Ret (spec_is_valid (py "52998224725")).
Proof.
  apply (validar_cpf_refines_spec no_unicode_digit (py "52998224725")).
  - exact normalized_valido.
  - reflexivity.
Defined.

Lemma single_digit_change_rejected_witness :
  (9 <= length (sensitive_positions no_unicode_digit (py "52998224725")))%nat.
Proof.
  apply (single_digit_change_rejected no_unicode_digit (py "52998224725")).
  - exact normalized_valido.
  - vm_compute. reflexivity.
Defined.

(** C3 as stated fails: [cpf_colisao], 10000928100, is valid (the sums are
    89 and 110, the remainders 1 and 0, both verification digits 0), and
    it stays valid when its digit 0 changes from 1 to 2 (sums 99 and 121,
    remainders 0 and 0) and when its digit 5 changes from 9 to 0 (sums 44
    and 56, remainders 0 and 1), so only 9 of its 11 positions are
    sensitive. *)
Lemma single_digit_change_counterexample :
  normalized cpf_colisao
  /\ validar_cpf no_unicode_digit cpf_colisao = Ret true
  /\ (cpf_colisao !! 0%nat = Some (N_of_ascii "1")
      /\ validar_cpf no_unicode_digit (mutate cpf_colisao 0 (N_of_ascii "2"))
         = Ret true)
  /\ (cpf_colisao !! 5%nat = Some (N_of_ascii "9")
      /\ validar_cpf no_unicode_digit (mutate cpf_colisao 5 (N_of_ascii "0"))
         = Ret true)
  /\ sensitive_positions no_unicode_digit cpf_colisao
     = [1; 2; 3; 4; 6; 7; 8; 9; 10]%nat
  /\ (length (sensitive_positions no_unicode_digit cpf_colisao) < 10)%nat.
Proof.
  split; [unfold normalized; by_decide|].
  split; [vm_compute; reflexivity|].
  split; [split; vm_compute; reflexivity|].
  split; [split; vm_compute; reflexivity|].
  split; [vm_compute; reflexivity|].
  vm_compute. lia.
Qed.

Lemma validar_cpf_length_witness :
  (length (limpar_cpf (py "123.456-7")) <> 11%nat
   /\ validar_cpf no_unicode_digit (py "123.456-7") = Ret false)
  /\ (Forall letter (py "abc")
      /\ validar_cpf no_unicode_digit (py "abc") = Ret false).
Proof.
  destruct (validar_cpf_length no_unicode_digit) as (H1 & _ & H2).
  assert (L : length (limpar_cpf (py "123.456-7")) <> 11%nat).
  { vm_compute. lia. }
  assert (A : Forall letter (py "abc")).
  { unfold py. simpl.
    repeat (constructor; [unfold letter; lia|]). constructor. }
  split; split; [exact L|exact (H1 _ L)|exact A|exact (proj2 (H2 _ A))].
Defined.

Lemma validar_cpf_all_identical_witness :
  limpar_cpf (py "111.111.111-11") = replicate 11 (N_of_ascii "1")
  /\ validar_cpf no_unicode_digit (py "111.111.111-11") = Ret false.
Proof.
  assert (E : limpar_cpf (py "111.111.111-11")
              = replicate 11 (N_of_ascii "1")) by reflexivity.
  split; [exact E|].
  exact (proj1 (validar_cpf_all_identical no_unicode_digit) _ _ E).
Defined.

Lemma validar_cpf_total_witness :
  length (limpar_cpf (py "529.982.247")) <> 11%nat
  /\ validar_cpf no_unicode_digit (py "529.982.247") = Ret false
  /\ checksum_ok (digits (limpar_cpf (py "123.456.789-00"))) = false
  /\ validar_cpf no_unicode_digit (py "123.456.789-00") = Ret false.
Proof.
  assert (L : length (limpar_cpf (py "529.982.247")) <> 11%nat).
  { vm_compute. lia. }
  assert (C : checksum_ok (digits (limpar_cpf (py "123.456.789-00"))) = false).
  { vm_compute. reflexivity. }
  pose proof (validar_cpf_total no_unicode_digit (py "529.982.247"))
    as (_ & _ & H1 & _).
  pose proof (validar_cpf_total no_unicode_digit (py "123.456.789-00"))
    as (_ & _ & _ & _ & H2 & _).
  split; [exact L|]. split; [exact (H1 L)|]. split; [exact C|exact (H2 C)].
Defined.

Lemma validar_cpf_digitos_range_witness :
  exists digito1 digito2,
    validar_cpf_digitos no_unicode_digit (py "52998224725")
    = Ret (digito1, digito2)
    /\ 0 <= digito1 <= 9 /\ 0 <= digito2 <= 9
    /\ length (format_int digito1 ++ format_int digito2) = 2%nat
    /\ (slice_from (py "52998224725") (-2)
        = format_int digito1 ++ format_int digito2
        <-> nth 9 (digits (py "52998224725")) 0 = digito1
            /\ nth 10 (digits (py "52998224725")) 0 = digito2).
Proof.
  apply (validar_cpf_digitos_range no_unicode_digit (py "529.982.247-25")).
  - reflexivity.
  - reflexivity.
  - unfold all_identical. vm_compute. congruence.
Defined.

(** * The further properties at concrete inputs *)

Lemma validar_cpf_ignores_separators_witness :
  validar_cpf no_unicode_digit (py "529" ++ py " . " ++ py "98224725")
  = validar_cpf no_unicode_digit (py "529" ++ py "98224725").
Proof.
  apply (validar_cpf_ignores_separators no_unicode_digit).
  unfold py. simpl.
  repeat (constructor; [unfold decimal_digit; lia|]). constructor.
Defined.

Lemma identical_digits_pass_checksum_witness :
  validar_cpf_digitos no_unicode_digit (replicate 11 (N_of_ascii "7"))
  = Ret (7, 7)
  /\ slice_from (replicate 11 (N_of_ascii "7")) (-2)
     = format_int 7 ++ format_int 7
  /\ validar_cpf no_unicode_digit (replicate 11 (N_of_ascii "7")) = Ret false.
Proof.
  apply (identical_digits_pass_checksum no_unicode_digit (N_of_ascii "7")).
  unfold decimal_digit. simpl. lia.
Defined.

Lemma valid_cpf_determined_by_prefix_witness :
  limpar_cpf (py "529.982.247-25") = limpar_cpf (py "52998224725").
Proof.
  apply (valid_cpf_determined_by_prefix no_unicode_digit).
  - vm_compute. reflexivity.
  - vm_compute. reflexivity.
  - reflexivity.
Defined.

Lemma valid_cpf_completion_witness :
  exists a b,
    decimal_digit a /\ decimal_digit b
    /\ checksum_ok (digits (py "529982247" ++ [a; b])) = true
    /\ validar_cpf no_unicode_digit (py "529982247" ++ [a; b])
       = Ret (negb (bool_decide (all_identical (py "529982247" ++ [a; b])))).
Proof.
  apply (valid_cpf_completion no_unicode_digit (py "529982247")).
  - unfold normalized. by_decide.
  - reflexivity.
Defined.

Lemma adjacent_transposition_rejected_witness :
  validar_cpf no_unicode_digit (transpose (py "52998224725") 0) = Ret false.
Proof.
  apply (adjacent_transposition_rejected no_unicode_digit (py "52998224725")
           0 (N_of_ascii "5") (N_of_ascii "2")).
  - exact normalized_valido.
  - vm_compute. reflexivity.
  - lia.
  - reflexivity.
  - reflexivity.
  - unfold digit_value. simpl. lia.
Defined.

Lemma get_queries_validated_witness :
  py "52998224725" = limpar_cpf (py "529.982.247-25")
  /\ fst (get no_unicode_digit always_truthy one_athlete (py "529.982.247-25"))
     = [py "52998224725"]
  /\ normalized (py "52998224725") /\ length (py "52998224725") = 11%nat
  /\ ~ all_identical (py "52998224725")
  /\ checksum_ok (digits (py "52998224725")) = true
  /\ validar_cpf no_unicode_digit (py "52998224725") = Ret true.
Proof.
  apply (get_queries_validated no_unicode_digit nat always_truthy one_athlete
           (py "529.982.247-25") (py "52998224725")).
  vm_compute. apply list_elem_of_here.
Defined.

Lemma get_format_insensitive_witness :
  fst (get no_unicode_digit always_truthy one_athlete (py "529.982.247-25"))
  = fst (get no_unicode_digit always_truthy one_athlete (py "52998224725"))
  /\ status_of
       (snd (get no_unicode_digit always_truthy one_athlete
               (py "529.982.247-25")))
     = status_of
         (snd (get no_unicode_digit always_truthy one_athlete
                 (py "52998224725")))
  /\ returned_of
       (snd (get no_unicode_digit always_truthy one_athlete
               (py "529.982.247-25")))
     = returned_of
         (snd (get no_unicode_digit always_truthy one_athlete
                 (py "52998224725")))
  /\ (snd (get no_unicode_digit always_truthy one_athlete
             (py "529.982.247-25")) = SessionFailure
      <-> snd (get no_unicode_digit always_truthy one_athlete
                 (py "52998224725")) = SessionFailure).
Proof.
  apply (get_format_insensitive no_unicode_digit nat always_truthy one_athlete
           (py "529.982.247-25") (py "52998224725")).
  reflexivity.
Defined.
